(** * The DRA claim tracker of the scheduler framework

    A shallow embedding of [pkg/scheduler/framework/runtime/dra_manager.go]
    (the [claimTracker] behind [DraManager.ResourceClaims]) and of
    [pkg/scheduler/framework/plugins/dynamicresources/claims.go]
    ([ClaimsAssumeCache]), with the properties of the tracker proved over it.

    Conventions of the embedding:
    - a Go method with a pointer receiver that mutates its receiver becomes
      a function from the state before to the state after;
    - a Go [(T, error)] result becomes a [result T]: [Ok], [Err], or a
      run-time [Panic];
    - [*resourceapi.ResourceClaim] arguments and stored values reference a
      claim object (whole-object replacement, never mutated in place), so a
      claim is a value of the record [ResourceClaim];
      module [pointers] keeps the pointers of the ledger, nil included, and
      agrees with module [runtime] on every ledger without nil;
    - [sync.Map] is a finite map whose values are untyped ([any]); every
      operation on it is atomic, and the operations of the tracker are
      taken one at a time. *)

From Stdlib Require Import String.
From stdpp Require Import base option list strings gmap fin_maps.

Open Scope string_scope.

(** ** Data model *)

(** Modelled from the spec: the declaration of [resourceapi.AllocationResult]
    is not part of the sources at hand.  The allocation record says which
    resources were committed to the claim; the tracker only ever tests the
    pointer to it against [nil]. *)
Record AllocationResult := mkAllocationResult {
  Devices : list string
}.

(** Modelled from the spec: [resourceapi.ResourceClaimStatus], an optional
    allocation record and the consumers currently reserving the claim. *)
Record ResourceClaimStatus := mkStatus {
  Allocation : option AllocationResult;
  ReservedFor : list string
}.

(** Modelled from the spec: [resourceapi.ResourceClaim] is declared outside
    the sources at hand.  Identity is the pair of namespace and name, and
    the UID ([types.UID], a string), which the tracker reads as [claim.UID].
    [ResourceVersion] is the version stamp of the object metadata, by which
    an ordering can tell two versions of one claim apart. *)
Record ResourceClaim := mkClaim {
  Namespace : string;
  Name : string;
  UID : string;
  ResourceVersion : N;
  Status : ResourceClaimStatus
}.

(** A value of Go's [interface{}] as the cache and the [sync.Map] hold it:
    a claim, or an object of some other kind, of which only the dynamic
    type (what [%T] prints) and the namespace and name are kept. *)
Inductive object :=
| ClaimObj (claim : ResourceClaim)
| OtherObj (goType : string) (namespace name : string).

(** The two-valued type assertion of [obj] to a claim pointer,
    [claim, ok := obj.(T)]. *)
Definition asClaim (obj : object) : option ResourceClaim :=
  match obj with
  | ClaimObj claim => Some claim
  | OtherObj _ _ _ => None
  end.

(** What [fmt]'s [%T] prints for the object. *)
Definition typeName (obj : object) : string :=
  match obj with
  | ClaimObj _ => "*v1alpha3.ResourceClaim"
  | OtherObj goType _ _ => goType
  end.

(** The name under which the cache files an object,
    ["<namespace>/<name>"]. *)
Definition objectKey (obj : object) : string :=
  match obj with
  | ClaimObj claim => Namespace claim ++ "/" ++ Name claim
  | OtherObj _ namespace name => namespace ++ "/" ++ name
  end.

(** [claim.Status.Allocation != nil] *)
Definition isAllocated (claim : ResourceClaim) : bool :=
  match Allocation (Status claim) with
  | Some _ => true
  | None => false
  end.

(** ** Errors and results *)

Inductive error :=
| ErrNotFound (key : string)
| ErrNotNewer (key : string)
| Errorf (msg : string).

Inductive result (A : Type) :=
| Ok (a : A)
| Err (e : error)
| Panic (reason : string).
Arguments Ok {A} a.
Arguments Err {A} e.
Arguments Panic {A} reason.

#[global] Instance result_ret : MRet result := fun A a => Ok a.
#[global] Instance result_bind : MBind result := fun A B f m =>
  match m with
  | Ok a => f a
  | Err e => Err e
  | Panic reason => Panic reason
  end.

(** The single-valued type assertion of [obj] to a claim pointer,
    [obj.(T)], which panics when the dynamic type is another one. *)
Definition assertClaim (obj : object) : result ResourceClaim :=
  match obj with
  | ClaimObj claim => Ok claim
  | OtherObj goType _ _ =>
      Panic ("interface conversion: interface {} is " ++ goType
             ++ ", not *v1alpha3.ResourceClaim")
  end.

(** ** The optimistic object cache *)

Module assumecache.

(** Modelled from the spec: package [assumecache] is not part of the
    sources at hand.  For each key the cache holds an authoritative
    version and optionally a newer assumed version. *)
Record objInfo := mkObjInfo {
  apiObj : object;
  assumed : option object
}.

Abbreviation AssumeCache := (gmap string objInfo).

(** Modelled from the spec: the best-known version of an entry, assumed
    if present, else authoritative. *)
Definition latestObj (info : objInfo) : object :=
  default (apiObj info) (assumed info).

(** Modelled from the spec: [AssumeCache.Get], the assumed-or-authoritative
    object of the key, a not-found error if the key is absent. *)
Definition Get (c : AssumeCache) (key : string) : result object :=
  match c !! key with
  | Some info => Ok (latestObj info)
  | None => Err (ErrNotFound key)
  end.

(** Modelled from the spec: [AssumeCache.GetAPIObj], the authoritative
    object of the key only. *)
Definition GetAPIObj (c : AssumeCache) (key : string) : result object :=
  match c !! key with
  | Some info => Ok (apiObj info)
  | None => Err (ErrNotFound key)
  end.

(** Modelled from the spec: [AssumeCache.List], all cached objects
    (assumed-or-authoritative per key), optionally filtered; the callers
    here pass [nil] for the selector.  The order is that of the map. *)
Definition List (c : AssumeCache) (selector : option (object → bool))
  : list object :=
  let objs := (λ kv, latestObj kv.2) <$> map_to_list c in
  match selector with
  | None => objs
  | Some keep => filter (λ obj, keep obj = true) objs
  end.

Section Ordering.

(** The ordering supplied to the cache: [newer new old] holds when [new]
    may replace [old] as the best-known version. *)
Variable newer : object → object → bool.

(** Modelled from the spec: [AssumeCache.Assume], insert [obj] as the
    assumed version of its key when the ordering accepts it as newer than
    what the cache already holds there; otherwise fail and leave the cache
    as it is.  An assumed version only ever accompanies an authoritative
    one, so a key the cache does not hold is an error. *)
Definition Assume (c : AssumeCache) (obj : object)
  : AssumeCache * option error :=
  let key := objectKey obj in
  match c !! key with
  | None => (c, Some (ErrNotFound key))
  | Some info =>
      if newer obj (latestObj info)
      then (<[key := mkObjInfo (apiObj info) (Some obj)]> c, None)
      else (c, Some (ErrNotNewer key))
  end.

End Ordering.

(** Modelled from the spec: [AssumeCache.Restore], discard the assumed
    version of the key; nothing happens if there is none. *)
Definition Restore (c : AssumeCache) (key : string) : AssumeCache :=
  match c !! key with
  | Some info => <[key := mkObjInfo (apiObj info) None]> c
  | None => c
  end.

End assumecache.

Abbreviation AssumeCache := assumecache.AssumeCache.

(** ** [ClaimsAssumeCache] of the dynamicresources plugin (claims.go) *)

Module dynamicresources.

Record ClaimsAssumeCache := mkClaimsAssumeCache {
  cache : AssumeCache
}.

Definition Get (c : ClaimsAssumeCache) (namespace claimName : string)
  : result ResourceClaim :=
  obj ← assumecache.Get (cache c) (namespace ++ "/" ++ claimName);
  match asClaim obj with
  | None =>
      Err (Errorf ("unexpected object type " ++ typeName obj
                   ++ " for assumed object " ++ namespace ++ "/" ++ claimName))
  | Some claim => Ok claim
  end.

Definition GetOriginal (c : ClaimsAssumeCache) (namespace claimName : string)
  : result ResourceClaim :=
  obj ← assumecache.GetAPIObj (cache c) (namespace ++ "/" ++ claimName);
  match asClaim obj with
  | None =>
      Err (Errorf ("unexpected object type " ++ typeName obj
                   ++ " for assumed object " ++ namespace ++ "/" ++ claimName))
  | Some claim => Ok claim
  end.

(** The body of the [range] loop: append the object when it is a claim. *)
Definition appendIfClaim (result : list ResourceClaim) (obj : object)
  : list ResourceClaim :=
  match asClaim obj with
  | Some claim => result ++ [claim]
  | None => result
  end.

Definition List (c : ClaimsAssumeCache) : result (list ResourceClaim) :=
  let objs := assumecache.List (cache c) None in
  Ok (foldl appendIfClaim [] objs).

Definition Assume (newer : object → object → bool)
  (c : ClaimsAssumeCache) (claim : ResourceClaim)
  : ClaimsAssumeCache * option error :=
  let (cache', err) := assumecache.Assume newer (cache c) (ClaimObj claim) in
  (mkClaimsAssumeCache cache', err).

Definition Restore (c : ClaimsAssumeCache) (namespace claimName : string)
  : ClaimsAssumeCache :=
  mkClaimsAssumeCache
    (assumecache.Restore (cache c) (namespace ++ "/" ++ claimName)).

End dynamicresources.

(** ** [claimTracker] of the framework runtime (dra_manager.go) *)

Module runtime.

(** [cache] is the assume cache of claims, [inFlightAllocations] the
    [sync.Map] from claim UIDs to the claim objects whose allocation was
    triggered and not yet written back. *)
Record claimTracker := mkClaimTracker {
  cache : AssumeCache;
  inFlightAllocations : gmap string object
}.

(** Of [DraManager] only the claim tracker is kept; the two listers pass
    through to informers and hold no allocation state. *)
Record DraManager := mkDraManager {
  resourceClaimTracker : claimTracker
}.

Definition NewDraManager (claimsCache : AssumeCache) : DraManager :=
  mkDraManager (mkClaimTracker claimsCache ∅).

Definition ResourceClaims (s : DraManager) : claimTracker :=
  resourceClaimTracker s.

Definition ClaimHasPendingAllocation (c : claimTracker) (claimUid : string)
  : bool :=
  match inFlightAllocations c !! claimUid with
  | Some _ => true
  | None => false
  end.

Definition SignalClaimPendingAllocation (c : claimTracker)
  (claimUid : string) (allocatedClaim : ResourceClaim) : claimTracker :=
  mkClaimTracker (cache c)
    (<[claimUid := ClaimObj allocatedClaim]> (inFlightAllocations c)).

(** [LoadAndDelete]: the state after, and whether an entry was there. *)
Definition RemoveClaimPendingAllocation (c : claimTracker)
  (claimUid : string) : claimTracker * bool :=
  (mkClaimTracker (cache c) (delete claimUid (inFlightAllocations c)),
   match inFlightAllocations c !! claimUid with
   | Some _ => true
   | None => false
   end).

Definition Get (c : claimTracker) (namespace claimName : string)
  : result ResourceClaim :=
  obj ← assumecache.Get (cache c) (namespace ++ "/" ++ claimName);
  match asClaim obj with
  | None =>
      Err (Errorf ("unexpected object type " ++ typeName obj
                   ++ " for assumed object " ++ namespace ++ "/" ++ claimName))
  | Some claim => Ok claim
  end.

Definition GetOriginal (c : claimTracker) (namespace claimName : string)
  : result ResourceClaim :=
  obj ← assumecache.GetAPIObj (cache c) (namespace ++ "/" ++ claimName);
  match asClaim obj with
  | None =>
      Err (Errorf ("unexpected object type " ++ typeName obj
                   ++ " for assumed object " ++ namespace ++ "/" ++ claimName))
  | Some claim => Ok claim
  end.

(** The body of the [range] loop of [List]. *)
Definition appendIfClaim (result : list ResourceClaim) (obj : object)
  : list ResourceClaim :=
  match asClaim obj with
  | Some claim => result ++ [claim]
  | None => result
  end.

Definition List (c : claimTracker) : result (list ResourceClaim) :=
  let objs := assumecache.List (cache c) None in
  Ok (foldl appendIfClaim [] objs).

(** The [range] loop of [ListAllAllocated] over what is left of [claims],
    with the slice [allocated] built so far. *)
Fixpoint listAllAllocatedLoop (inFlight : gmap string object)
  (claims allocated : list ResourceClaim) : result (list ResourceClaim) :=
  match claims with
  | [] => Ok allocated
  | origClaim :: rest =>
      claim ← match inFlight !! UID origClaim with
              | Some obj => assertClaim obj
              | None => Ok origClaim
              end;
      listAllAllocatedLoop inFlight rest
        (if isAllocated claim then allocated ++ [claim] else allocated)
  end.

Definition ListAllAllocated (c : claimTracker) : result (list ResourceClaim) :=
  claims ← List c;
  listAllAllocatedLoop (inFlightAllocations c) claims [].

Definition AssumeClaimAfterApiCall (newer : object → object → bool)
  (c : claimTracker) (claim : ResourceClaim) : claimTracker * option error :=
  let (cache', err) := assumecache.Assume newer (cache c) (ClaimObj claim) in
  (mkClaimTracker cache' (inFlightAllocations c), err).

Definition AssumedClaimRestore (c : claimTracker)
  (namespace claimName : string) : claimTracker :=
  mkClaimTracker
    (assumecache.Restore (cache c) (namespace ++ "/" ++ claimName))
    (inFlightAllocations c).

End runtime.

(** ** States of the tracker *)

(** The operations of the tracker that change its state; the four reads
    ([Get], [GetOriginal], [List], [ListAllAllocated]) and
    [ClaimHasPendingAllocation] leave it as it is. *)
Inductive operation :=
| OpSignal (claimUid : string) (allocatedClaim : ResourceClaim)
| OpRemove (claimUid : string)
| OpAssume (claim : ResourceClaim)
| OpRestore (namespace claimName : string).

Definition perform (newer : object → object → bool)
  (c : runtime.claimTracker) (o : operation) : runtime.claimTracker :=
  match o with
  | OpSignal claimUid allocatedClaim =>
      runtime.SignalClaimPendingAllocation c claimUid allocatedClaim
  | OpRemove claimUid => (runtime.RemoveClaimPendingAllocation c claimUid).1
  | OpAssume claim => (runtime.AssumeClaimAfterApiCall newer c claim).1
  | OpRestore namespace claimName =>
      runtime.AssumedClaimRestore c namespace claimName
  end.

(** The states a tracker can be in: it starts in [NewDraManager] around any
    claims cache with an empty ledger, its operations are performed one
    after the other, and the informer may change the cache (which the
    tracker shares with it) in between. *)
Inductive reachable (newer : object → object → bool)
  : runtime.claimTracker → Prop :=
| reachable_new (claimsCache : AssumeCache) :
    reachable newer (runtime.ResourceClaims (runtime.NewDraManager claimsCache))
| reachable_perform (c : runtime.claimTracker) (o : operation) :
    reachable newer c → reachable newer (perform newer c o)
| reachable_informer (c : runtime.claimTracker) (cache' : AssumeCache) :
    reachable newer c →
    reachable newer
      (runtime.mkClaimTracker cache' (runtime.inFlightAllocations c)).

(** Every value of the ledger is a claim object. *)
Definition ledgerHoldsClaims (c : runtime.claimTracker) : Prop :=
  map_Forall (λ _ obj, is_Some (asClaim obj)) (runtime.inFlightAllocations c).

(** ** [ListAllAllocated] in the words of its description *)

(** The version of a listed claim that counts: the ledger's claim object
    for the UID of the claim if the ledger has an entry for it, the cached
    claim otherwise. *)
Definition substituteInFlight (inFlight : gmap string object)
  (claim : ResourceClaim) : ResourceClaim :=
  match inFlight !! UID claim ≫= asClaim with
  | Some ledgerClaim => ledgerClaim
  | None => claim
  end.

(** Substitute in every listed claim, keep those with an allocation. *)
Definition allocatedAfterSubstitution (inFlight : gmap string object)
  (claims : list ResourceClaim) : list ResourceClaim :=
  filter (λ claim, isAllocated claim = true)
         (substituteInFlight inFlight <$> claims).




(** ** The contract of [Get] and [GetOriginal] *)

(** The type-mismatch error for [obj] found under [namespace] and
    [claimName]; the message names the dynamic type of [obj]. *)
Definition mismatchError (obj : object) (namespace claimName : string)
  : error :=
  Errorf ("unexpected object type " ++ typeName obj
          ++ " for assumed object " ++ namespace ++ "/" ++ claimName).

(** What a lookup of the claim [namespace]/[claimName] has to answer when
    [held] is the version the cache holds for that key, if any: the claim,
    a not-found error exactly when there is none, a type-mismatch error
    exactly when it is not a claim, and nothing else. *)
Definition lookupContract (held : option object)
  (namespace claimName : string) (outcome : result ResourceClaim) : Prop :=
  (outcome = Err (ErrNotFound (namespace ++ "/" ++ claimName))
   ↔ held = None)
  ∧ (∀ claim, outcome = Ok claim ↔ held = Some (ClaimObj claim))
  ∧ (∀ obj, held = Some obj → asClaim obj = None →
            outcome = Err (mismatchError obj namespace claimName))
  ∧ (∀ msg, outcome = Err (Errorf msg) →
            ∃ obj, held = Some obj ∧ asClaim obj = None)
  ∧ (∀ reason, outcome ≠ Panic reason).

(** ** Sample claims and states *)

Module Samples.

(** An ordering by resource version, for claims only. *)
Definition newerResourceVersion (new old : object) : bool :=
  match new, old with
  | ClaimObj n, ClaimObj o => bool_decide (ResourceVersion o < ResourceVersion n)%N
  | _, _ => false
  end.

Definition gpu0 : AllocationResult := mkAllocationResult ["gpu-0"].
Definition gpu1 : AllocationResult := mkAllocationResult ["gpu-1"].

(** Claim [ns/x], UID [u1]: as first seen, and after its allocation. *)
Definition claimX : ResourceClaim :=
  mkClaim "ns" "x" "u1" 1 (mkStatus None []).
Definition claimX' : ResourceClaim :=
  mkClaim "ns" "x" "u1" 2 (mkStatus (Some gpu0) []).

(** Claim [ns/y], UID [u2]: allocated, and a version without allocation. *)
Definition claimY : ResourceClaim :=
  mkClaim "ns" "y" "u2" 1 (mkStatus (Some gpu1) []).
Definition claimY' : ResourceClaim :=
  mkClaim "ns" "y" "u2" 2 (mkStatus None ["pod-a"]).

(** Claim [ns/z], UID [u3]: allocated, held by no cache below. *)
Definition claimZ : ResourceClaim :=
  mkClaim "ns" "z" "u3" 1 (mkStatus (Some gpu0) []).

(** An object of another kind. *)
Definition podP : object := OtherObj "*v1.Pod" "ns" "p".

Definition cacheXY : AssumeCache :=
  <["ns/x" := assumecache.mkObjInfo (ClaimObj claimX) None]>
    (<["ns/y" := assumecache.mkObjInfo (ClaimObj claimY) None]> ∅).

Definition cacheXYP : AssumeCache :=
  <["ns/p" := assumecache.mkObjInfo podP None]> cacheXY.

Definition trackerXY : runtime.claimTracker :=
  runtime.ResourceClaims (runtime.NewDraManager cacheXY).

Definition trackerXYP : runtime.claimTracker :=
  runtime.ResourceClaims (runtime.NewDraManager cacheXYP).



(** The ledger holds [ns/y] without allocation under its UID, and the
    allocated [ns/z], which the cache does not hold. *)
Definition trackerYZ : runtime.claimTracker :=
  runtime.SignalClaimPendingAllocation
    (runtime.SignalClaimPendingAllocation trackerXY "u2" claimY')
    "u3" claimZ.

End Samples.

(** ** The ledger with its pointers *)

Module pointers.

(** What the [sync.Map] holds: the claim pointer handed to
    [SignalClaimPendingAllocation], which may be nil, or an object that is
    not a claim pointer at all. *)
Inductive any :=
| NilClaim
| Value (obj : object).

(** A claim pointer as a value of [interface{}]. *)
Definition ofPointer (claim : option ResourceClaim) : any :=
  match claim with
  | Some claim => Value (ClaimObj claim)
  | None => NilClaim
  end.

(** The cache lists claim objects; the ledger holds whatever it was
    handed. *)
Record claimTracker := mkClaimTracker {
  cache : AssumeCache;
  inFlightAllocations : gmap string any
}.

(** The tracker that [NewDraManager] builds. *)
Definition newClaimTracker (claimsCache : AssumeCache) : claimTracker :=
  mkClaimTracker claimsCache ∅.

Definition ClaimHasPendingAllocation (c : claimTracker) (claimUid : string)
  : bool :=
  match inFlightAllocations c !! claimUid with
  | Some _ => true
  | None => false
  end.

(** The pointer is stored as it comes, nil included. *)
Definition SignalClaimPendingAllocation (c : claimTracker)
  (claimUid : string) (allocatedClaim : option ResourceClaim) : claimTracker :=
  mkClaimTracker (cache c)
    (<[claimUid := ofPointer allocatedClaim]> (inFlightAllocations c)).

Definition RemoveClaimPendingAllocation (c : claimTracker)
  (claimUid : string) : claimTracker * bool :=
  (mkClaimTracker (cache c) (delete claimUid (inFlightAllocations c)),
   match inFlightAllocations c !! claimUid with
   | Some _ => true
   | None => false
   end).

(** The panic of a failed type assertion to a claim pointer. *)
Definition conversionPanic (goType : string) : string :=
  "interface conversion: interface {} is " ++ goType
  ++ ", not *v1alpha3.ResourceClaim".

(** The panic of a read through a nil pointer. *)
Definition nilDereference : string :=
  "runtime error: invalid memory address or nil pointer dereference".

(** The single-valued type assertion to a claim pointer: a nil claim
    pointer has the asserted type and passes. *)
Definition assertClaimPointer (v : any) : result (option ResourceClaim) :=
  match v with
  | NilClaim => Ok None
  | Value obj => claim ← assertClaim obj; Ok (Some claim)
  end.

Definition List (c : claimTracker) : result (list ResourceClaim) :=
  let objs := assumecache.List (cache c) None in
  Ok (foldl runtime.appendIfClaim [] objs).

(** The [range] loop of [ListAllAllocated]: [claim] is the pointer from the
    ledger if there is an entry for the UID, and reading
    [claim.Status.Allocation] through a nil pointer panics. *)
Fixpoint listAllAllocatedLoop (inFlight : gmap string any)
  (claims allocated : list ResourceClaim) : result (list ResourceClaim) :=
  match claims with
  | [] => Ok allocated
  | origClaim :: rest =>
      claim ← match inFlight !! UID origClaim with
              | Some v => assertClaimPointer v
              | None => Ok (Some origClaim)
              end;
      match claim with
      | None => Panic nilDereference
      | Some claim =>
          listAllAllocatedLoop inFlight rest
            (if isAllocated claim then allocated ++ [claim] else allocated)
      end
  end.

Definition ListAllAllocated (c : claimTracker) : result (list ResourceClaim) :=
  claims ← List c;
  listAllAllocatedLoop (inFlightAllocations c) claims [].

(** The states the tracker can reach: it starts with an empty ledger
    around any claims cache; the ledger is written by
    [SignalClaimPendingAllocation] with any pointer and by
    [RemoveClaimPendingAllocation]; [AssumeClaimAfterApiCall],
    [AssumedClaimRestore] and the informer change the cache alone, whatever
    they change it to. *)
Inductive reachable : claimTracker → Prop :=
| reach_new (claimsCache : AssumeCache) :
    reachable (newClaimTracker claimsCache)
| reach_signal (c : claimTracker) (claimUid : string)
    (allocatedClaim : option ResourceClaim) :
    reachable c →
    reachable (SignalClaimPendingAllocation c claimUid allocatedClaim)
| reach_remove (c : claimTracker) (claimUid : string) :
    reachable c → reachable (RemoveClaimPendingAllocation c claimUid).1
| reach_cache (c : claimTracker) (cache' : AssumeCache) :
    reachable c → reachable (mkClaimTracker cache' (inFlightAllocations c)).

(** The ledger holds a nil claim pointer under the UID of [claim]. *)
Definition nilEntryFor (inFlight : gmap string any)
  (claim : ResourceClaim) : Prop :=
  inFlight !! UID claim = Some NilClaim.

(** The ledger holds, under the UID of [claim], a value that is not a
    claim pointer. *)
Definition foreignEntryFor (inFlight : gmap string any)
  (claim : ResourceClaim) : Prop :=
  ∃ obj, inFlight !! UID claim = Some (Value obj) ∧ asClaim obj = None.

(** A tracker whose ledger holds claim objects only, with its pointers. *)
Definition ofTracker (c : runtime.claimTracker) : claimTracker :=
  mkClaimTracker (runtime.cache c) (Value <$> runtime.inFlightAllocations c).

End pointers.

(** ** What a ledger operation does to the list *)



(** ** Sample states with pointers *)

Module PointerSamples.

(** A nil pointer signalled for [ns/x] under its UID. *)
Definition trackerNilX : pointers.claimTracker :=
  pointers.SignalClaimPendingAllocation
    (pointers.newClaimTracker Samples.cacheXY) "u1" None.

(** A nil pointer signalled under a UID no listed claim carries, beside
    the allocated [ns/x]. *)
Definition trackerNilZ : pointers.claimTracker :=
  pointers.SignalClaimPendingAllocation
    (pointers.SignalClaimPendingAllocation
       (pointers.newClaimTracker Samples.cacheXY) "u3" None)
    "u1" (Some Samples.claimX').

End PointerSamples.

(** ** Auxiliary facts *)

Lemma foldl_appendIfClaim (objs : list object) (acc : list ResourceClaim) :
  foldl runtime.appendIfClaim acc objs = (acc ++ omap asClaim objs)%list.
Proof.
  revert acc. induction objs as [|obj objs IH]; intros acc; simpl.
  - by rewrite app_nil_r.
  - rewrite IH. unfold runtime.appendIfClaim.
    destruct (asClaim obj); [by rewrite <- app_assoc | done].
Qed.

Lemma List_omap (c : runtime.claimTracker) :
  runtime.List c
  = Ok (omap asClaim (assumecache.List (runtime.cache c) None)).
Proof. unfold runtime.List. by rewrite foldl_appendIfClaim. Qed.

Lemma elem_of_cache_List (cache : AssumeCache) (obj : object) :
  obj ∈ assumecache.List cache None
  ↔ ∃ key info, cache !! key = Some info ∧ assumecache.latestObj info = obj.
Proof.
  unfold assumecache.List. rewrite list_elem_of_fmap. split.
  - intros [[key info] [-> Hin]]. apply elem_of_map_to_list in Hin. eauto.
  - intros (key & info & Hlook & <-). exists (key, info). split; [done|].
    by apply elem_of_map_to_list.
Qed.

Lemma elem_of_List (c : runtime.claimTracker) (claim : ResourceClaim) :
  (∃ claims, runtime.List c = Ok claims ∧ claim ∈ claims)
  ↔ ∃ key info, runtime.cache c !! key = Some info
                ∧ assumecache.latestObj info = ClaimObj claim.
Proof.
  rewrite List_omap. split.
  - intros (claims & [= <-] & Hin). apply list_elem_of_omap in Hin.
    destruct Hin as (obj & Hobj & Has). apply elem_of_cache_List in Hobj.
    destruct Hobj as (key & info & Hlook & <-). exists key, info.
    split; [done|]. destruct (assumecache.latestObj info); naive_solver.
  - intros (key & info & Hlook & Hobj). eexists. split; [done|].
    apply list_elem_of_omap. exists (ClaimObj claim). split; [|done].
    apply elem_of_cache_List. eauto.
Qed.

Lemma substituteInFlight_None (inFlight : gmap string object)
  (claim : ResourceClaim) :
  inFlight !! UID claim = None → substituteInFlight inFlight claim = claim.
Proof. intros H. unfold substituteInFlight. by rewrite H. Qed.


(** With only claims in the ledger the loop never panics, and it appends
    to [allocated] the substituted claims that carry an allocation. *)
Lemma listAllAllocatedLoop_Ok (inFlight : gmap string object)
  (claims allocated : list ResourceClaim) :
  map_Forall (λ _ obj, is_Some (asClaim obj)) inFlight →
  runtime.listAllAllocatedLoop inFlight claims allocated
  = Ok (allocated ++ allocatedAfterSubstitution inFlight claims)%list.
Proof.
  intros Hledger. revert allocated.
  induction claims as [|origClaim rest IH]; intros allocated.
  - simpl. by rewrite app_nil_r.
  - cbn [runtime.listAllAllocatedLoop]. unfold allocatedAfterSubstitution.
    rewrite fmap_cons, filter_cons.
    assert (match inFlight !! UID origClaim with
            | Some obj => assertClaim obj
            | None => Ok origClaim
            end = Ok (substituteInFlight inFlight origClaim)) as ->.
    { unfold substituteInFlight.
      destruct (inFlight !! UID origClaim) as [obj|] eqn:Hlook; [|done].
      destruct (Hledger _ _ Hlook) as [claim Hclaim].
      by destruct obj. }
    generalize (substituteInFlight inFlight origClaim) as claim.
    intros claim. simpl. rewrite IH.
    destruct (isAllocated claim) eqn:Halloc.
    + rewrite decide_True by done. by rewrite <- app_assoc.
    + rewrite decide_False by congruence. done.
Qed.

Lemma ListAllAllocated_Ok (c : runtime.claimTracker) :
  ledgerHoldsClaims c →
  runtime.ListAllAllocated c
  = Ok (allocatedAfterSubstitution (runtime.inFlightAllocations c)
          (omap asClaim (assumecache.List (runtime.cache c) None))).
Proof.
  intros Hledger. unfold runtime.ListAllAllocated. rewrite List_omap. simpl.
  by rewrite listAllAllocatedLoop_Ok.
Qed.

(** A value of the ledger that is not a claim makes the loop panic as soon
    as a listed claim carries its UID. *)
Lemma listAllAllocatedLoop_Panic (inFlight : gmap string object)
  (origClaim : ResourceClaim) (rest allocated : list ResourceClaim)
  (goType namespace name : string) :
  inFlight !! UID origClaim = Some (OtherObj goType namespace name) →
  ∃ reason,
    runtime.listAllAllocatedLoop inFlight (origClaim :: rest) allocated
    = Panic reason.
Proof. intros H. simpl. rewrite H. simpl. eauto. Qed.


(** *** The ledger invariant *)



(** Conversely every cache with every ledger of claims is a state of the
    tracker: signal the entries one by one. *)
Lemma ledgerHoldsClaims_reachable (newer : object → object → bool)
  (c : runtime.claimTracker) :
  ledgerHoldsClaims c → reachable newer c.
Proof.
  destruct c as [cache inFlight]. unfold ledgerHoldsClaims. simpl.
  induction inFlight as [|uid obj inFlight Hfresh _ IH] using map_first_key_ind.
  - intros _. apply (reachable_new newer cache).
  - intros H. apply map_Forall_insert in H as [[claim Hclaim] H]; [|done].
    destruct obj as [claim'|]; [|done]. simplify_eq/=.
    apply (reachable_perform newer (runtime.mkClaimTracker cache inFlight)
             (OpSignal uid claim)).
    by apply IH.
Qed.




(** ** The ledger operations *)

(** C7: [RemoveClaimPendingAllocation] removes the entry of the UID (and
    nothing else) and reports [true] exactly when there was one; right
    after it [ClaimHasPendingAllocation] is [false] for the UID, and a
    second removal reports [false] and changes nothing. *)
Theorem RemoveClaimPendingAllocation_clears (c : runtime.claimTracker)
  (claimUid : string) :
  let (c', found) := runtime.RemoveClaimPendingAllocation c claimUid in
  (found = true ↔ is_Some (runtime.inFlightAllocations c !! claimUid))
  ∧ found = runtime.ClaimHasPendingAllocation c claimUid
  ∧ runtime.inFlightAllocations c' !! claimUid = None
  ∧ (∀ uid, uid ≠ claimUid →
       runtime.inFlightAllocations c' !! uid
       = runtime.inFlightAllocations c !! uid)
  ∧ runtime.cache c' = runtime.cache c
  ∧ runtime.ClaimHasPendingAllocation c' claimUid = false
  ∧ runtime.RemoveClaimPendingAllocation c' claimUid = (c', false).
Proof.
  unfold runtime.RemoveClaimPendingAllocation,
    runtime.ClaimHasPendingAllocation. simpl.
  rewrite lookup_delete_eq, delete_delete_eq.
  repeat split; try done.
  - destruct (runtime.inFlightAllocations c !! claimUid); [eauto|done].
  - intros [obj ->]. done.
  - intros uid Hne. by rewrite lookup_delete_ne.
Qed.

(** C8: [SignalClaimPendingAllocation] is a total function of the state
    (it cannot fail) after which [ClaimHasPendingAllocation] is [true] for
    the UID; a second signal for the same UID overwrites the first, so the
    ledger's value for the UID is the second claim and the state is the one
    the second signal alone would have produced, whatever it is observed
    through. *)
Theorem SignalClaimPendingAllocation_last_write_wins
  (c : runtime.claimTracker) (claimUid : string) (c1 c2 : ResourceClaim) :
  let first := runtime.SignalClaimPendingAllocation c claimUid c1 in
  let second := runtime.SignalClaimPendingAllocation first claimUid c2 in
  runtime.ClaimHasPendingAllocation first claimUid = true
  ∧ runtime.inFlightAllocations first !! claimUid = Some (ClaimObj c1)
  ∧ runtime.ClaimHasPendingAllocation second claimUid = true
  ∧ runtime.inFlightAllocations second !! claimUid = Some (ClaimObj c2)
  ∧ second = runtime.SignalClaimPendingAllocation c claimUid c2
  ∧ runtime.ListAllAllocated second
    = runtime.ListAllAllocated
        (runtime.SignalClaimPendingAllocation c claimUid c2).
Proof.
  unfold runtime.SignalClaimPendingAllocation,
    runtime.ClaimHasPendingAllocation. simpl.
  rewrite !lookup_insert_eq, insert_insert_eq. done.
Qed.

(** A ledger value of another kind under the UID of a listed claim makes
    [ListAllAllocated] panic. *)
Example ListAllAllocated_panics_on_foreign_value :
  ∃ reason,
    runtime.ListAllAllocated
      (runtime.mkClaimTracker Samples.cacheXY {["u1" := Samples.podP]})
    = Panic reason.
Proof. vm_compute. eauto. Qed.

(** ** [ListAllAllocated] *)











(** The entry for [ns/z] in [Samples.trackerYZ] is such an entry: the
    result is the same with it and without it. *)
Example ListAllAllocated_ignores_unlisted_entry :
  runtime.ListAllAllocated Samples.trackerYZ
  = runtime.ListAllAllocated
      (runtime.RemoveClaimPendingAllocation Samples.trackerYZ "u3").1.
Proof. vm_compute. reflexivity. Qed.

(** ** Reads of the cache *)

Lemma asClaim_lookup (held : option object) (namespace claimName : string) :
  lookupContract held namespace claimName
    (match held with
     | None => Err (ErrNotFound (namespace ++ "/" ++ claimName))
     | Some obj =>
         match asClaim obj with
         | None => Err (mismatchError obj namespace claimName)
         | Some claim => Ok claim
         end
     end).
Proof.
  unfold lookupContract, mismatchError.
  destruct held as [[claim|goType ns name]|]; simpl.
  - split_and!; try done.
    + intros claim'. split; congruence.
    + intros obj [= <-]. done.
  - split_and!; try done.
    + intros obj [= <-] _. done.
    + intros msg _. eauto.
  - split_and!; try done.
Qed.

(** C5: [Get] answers for the version the cache holds for the key, the
    assumed one if there is one and the authoritative one otherwise:
    that claim, a not-found error exactly when the cache has no entry
    for the key, and a type-mismatch error naming the dynamic type exactly
    when that version is not a claim.  [GetOriginal] answers in the same
    way for the authoritative version alone, whatever is assumed.  The two
    methods of [ClaimsAssumeCache] give the same answers. *)
Theorem Get_and_GetOriginal_contract (c : runtime.claimTracker)
  (namespace claimName : string) :
  let key := namespace ++ "/" ++ claimName in
  lookupContract
    (assumecache.latestObj <$> runtime.cache c !! key)
    namespace claimName (runtime.Get c namespace claimName)
  ∧ lookupContract
      (assumecache.apiObj <$> runtime.cache c !! key)
      namespace claimName (runtime.GetOriginal c namespace claimName)
  ∧ (∀ info, runtime.cache c !! key = Some info →
       assumecache.latestObj info
       = match assumecache.assumed info with
         | Some obj => obj
         | None => assumecache.apiObj info
         end)
  ∧ dynamicresources.Get
      (dynamicresources.mkClaimsAssumeCache (runtime.cache c))
      namespace claimName
    = runtime.Get c namespace claimName
  ∧ dynamicresources.GetOriginal
      (dynamicresources.mkClaimsAssumeCache (runtime.cache c))
      namespace claimName
    = runtime.GetOriginal c namespace claimName.
Proof.
  intros key. split_and!.
  - unfold runtime.Get, assumecache.Get. fold key.
    destruct (runtime.cache c !! key) as [info|]; simpl;
      [apply (asClaim_lookup (Some _))|apply (asClaim_lookup None)].
  - unfold runtime.GetOriginal, assumecache.GetAPIObj. fold key.
    destruct (runtime.cache c !! key) as [info|]; simpl;
      [apply (asClaim_lookup (Some _))|apply (asClaim_lookup None)].
  - intros info _. unfold assumecache.latestObj.
    by destruct (assumecache.assumed info).
  - reflexivity.
  - reflexivity.
Qed.

Lemma foldl_appendIfClaim_plugin (objs : list object)
  (acc : list ResourceClaim) :
  foldl dynamicresources.appendIfClaim acc objs
  = (acc ++ omap asClaim objs)%list.
Proof. apply foldl_appendIfClaim. Qed.

Lemma omap_asClaim_fmap {A : Type} (g : A → object) (l : list A) :
  omap asClaim (g <$> l) = omap (λ x, asClaim (g x)) l.
Proof.
  induction l as [|x l IH]; [done|]. csimpl. rewrite IH. done.
Qed.

(** C6: [List] never fails, whatever the cache holds: it returns the
    claims among the versions the cache holds (assumed if there is one,
    else authoritative), one for each key whose version is a claim, and
    passes over the versions of another kind.  [ClaimsAssumeCache.List]
    returns the same list. *)
Theorem List_skips_foreign_objects (c : runtime.claimTracker) :
  ∃ claims,
    runtime.List c = Ok claims
    ∧ dynamicresources.List
        (dynamicresources.mkClaimsAssumeCache (runtime.cache c))
      = Ok claims
    ∧ claims
      = omap (λ kv, asClaim (assumecache.latestObj kv.2))
             (map_to_list (runtime.cache c))
    ∧ (∀ claim,
         claim ∈ claims
         ↔ ∃ key info, runtime.cache c !! key = Some info
                       ∧ assumecache.latestObj info = ClaimObj claim).
Proof.
  eexists. split; [apply List_omap|]. split_and!.
  - unfold dynamicresources.List. by rewrite foldl_appendIfClaim_plugin.
  - unfold assumecache.List. by rewrite omap_asClaim_fmap.
  - intros claim. rewrite <- elem_of_List. rewrite List_omap. split.
    + intros Hin. eauto.
    + by intros (claims & [= <-] & Hin).
Qed.

(** The pod among the entries of [Samples.cacheXYP] is passed over. *)
Example List_skips_pod :
  runtime.List Samples.trackerXYP = Ok [Samples.claimY; Samples.claimX].
Proof. vm_compute. reflexivity. Qed.

Example Get_reports_pod :
  runtime.Get Samples.trackerXYP "ns" "p"
  = Err (Errorf "unexpected object type *v1.Pod for assumed object ns/p").
Proof. vm_compute. reflexivity. Qed.

(** ** Assuming and restoring *)

Lemma GetOriginal_Ok_lookup (c : runtime.claimTracker)
  (namespace claimName : string) (claim : ResourceClaim) :
  runtime.GetOriginal c namespace claimName = Ok claim →
  ∃ info, runtime.cache c !! (namespace ++ "/" ++ claimName) = Some info
          ∧ assumecache.apiObj info = ClaimObj claim.
Proof.
  unfold runtime.GetOriginal, assumecache.GetAPIObj.
  destruct (runtime.cache c !! _) as [info|]; simpl; [|done].
  destruct (assumecache.apiObj info) as [claim'|] eqn:Hobj; simpl; [|done].
  intros [= ->]. eauto.
Qed.

(** The cache takes the claim when its ordering accepts it as newer than
    the version it holds for the key. *)
Lemma AssumeClaimAfterApiCall_accepts (newer : object → object → bool)
  (c : runtime.claimTracker) (namespace claimName : string)
  (held claim : ResourceClaim) :
  runtime.Get c namespace claimName = Ok held →
  objectKey (ClaimObj claim) = namespace ++ "/" ++ claimName →
  newer (ClaimObj claim) (ClaimObj held) = true →
  ∃ c', runtime.AssumeClaimAfterApiCall newer c claim = (c', None).
Proof.
  unfold runtime.Get, assumecache.Get, runtime.AssumeClaimAfterApiCall,
    assumecache.Assume.
  intros Hget Hkey Hnewer. rewrite Hkey.
  destruct (runtime.cache c !! _) as [info|]; simpl in *; [|done].
  destruct (assumecache.latestObj info) as [held'|]; simpl in *; [|done].
  injection Hget as ->. rewrite Hnewer. eauto.
Qed.

(** And it refuses the claim, leaving the state as it is, when the
    ordering does not. *)
Lemma AssumeClaimAfterApiCall_refuses (newer : object → object → bool)
  (c : runtime.claimTracker) (namespace claimName : string)
  (held claim : ResourceClaim) :
  runtime.Get c namespace claimName = Ok held →
  objectKey (ClaimObj claim) = namespace ++ "/" ++ claimName →
  newer (ClaimObj claim) (ClaimObj held) = false →
  ∃ err, runtime.AssumeClaimAfterApiCall newer c claim = (c, Some err).
Proof.
  unfold runtime.Get, assumecache.Get, runtime.AssumeClaimAfterApiCall,
    assumecache.Assume.
  intros Hget Hkey Hnewer. rewrite Hkey.
  destruct (runtime.cache c !! _) as [info|]; simpl in *; [|done].
  destruct (assumecache.latestObj info) as [held'|]; simpl in *; [|done].
  injection Hget as ->. rewrite Hnewer. destruct c. eauto.
Qed.

(** C4: when the key holds the authoritative claim [A] and
    [AssumeClaimAfterApiCall] of a claim [B] with the same key succeeds
    (the ordering of the cache accepted [B]), then [Get] of the key returns
    [B] while [GetOriginal] still returns [A]; and after
    [AssumedClaimRestore] of the key [Get] returns [A] again. *)
Theorem assume_restore_round_trip (newer : object → object → bool)
  (c c' : runtime.claimTracker) (namespace claimName : string)
  (A B : ResourceClaim) :
  runtime.GetOriginal c namespace claimName = Ok A →
  objectKey (ClaimObj B) = namespace ++ "/" ++ claimName →
  runtime.AssumeClaimAfterApiCall newer c B = (c', None) →
  runtime.Get c' namespace claimName = Ok B
  ∧ runtime.GetOriginal c' namespace claimName = Ok A
  ∧ runtime.Get (runtime.AssumedClaimRestore c' namespace claimName)
      namespace claimName = Ok A
  ∧ runtime.GetOriginal (runtime.AssumedClaimRestore c' namespace claimName)
      namespace claimName = Ok A.
Proof.
  intros Horig Hkey Hassume.
  apply GetOriginal_Ok_lookup in Horig as (info & Hlook & Hinfo).
  unfold runtime.AssumeClaimAfterApiCall, assumecache.Assume in Hassume.
  rewrite Hkey, Hlook in Hassume.
  destruct (newer _ _); [|done]. injection Hassume as <-.
  unfold runtime.Get, runtime.GetOriginal, runtime.AssumedClaimRestore,
    assumecache.Get, assumecache.GetAPIObj, assumecache.Restore. simpl.
  rewrite !lookup_insert_eq. simpl. rewrite ?lookup_insert_eq. simpl.
  rewrite Hinfo. done.
Qed.

Lemma assume_restore_round_trip_witness :
  let c' := (runtime.AssumeClaimAfterApiCall Samples.newerResourceVersion
               Samples.trackerXY Samples.claimX').1 in
  runtime.Get c' "ns" "x" = Ok Samples.claimX'
  ∧ runtime.GetOriginal c' "ns" "x" = Ok Samples.claimX
  ∧ runtime.Get (runtime.AssumedClaimRestore c' "ns" "x") "ns" "x"
    = Ok Samples.claimX
  ∧ runtime.GetOriginal (runtime.AssumedClaimRestore c' "ns" "x") "ns" "x"
    = Ok Samples.claimX.
Proof.
  apply (assume_restore_round_trip Samples.newerResourceVersion
           Samples.trackerXY).
  - vm_compute. reflexivity.
  - reflexivity.
  - vm_compute. reflexivity.
Defined.

(** A claim that is not newer is refused, and the cache stays as it was. *)
Example stale_assume_refused :
  runtime.AssumeClaimAfterApiCall Samples.newerResourceVersion
    Samples.trackerXY Samples.claimX
  = (Samples.trackerXY, Some (ErrNotNewer "ns/x")).
Proof. vm_compute. reflexivity. Qed.

(** The scenario of the ledger, end to end: [ns/x] is signalled as
    allocated and listed from the ledger; once assumed and removed from the
    ledger it is still listed, now from the cache. *)
Example signalled_then_assumed :
  let signalled :=
    runtime.SignalClaimPendingAllocation Samples.trackerXY "u1"
      Samples.claimX' in
  let assumed :=
    (runtime.AssumeClaimAfterApiCall Samples.newerResourceVersion
       signalled Samples.claimX').1 in
  let removed := (runtime.RemoveClaimPendingAllocation assumed "u1").1 in
  runtime.ListAllAllocated Samples.trackerXY = Ok [Samples.claimY]
  ∧ runtime.ListAllAllocated signalled
    = Ok [Samples.claimY; Samples.claimX']
  ∧ runtime.ClaimHasPendingAllocation removed "u1" = false
  ∧ runtime.ListAllAllocated removed = Ok [Samples.claimY; Samples.claimX'].
Proof. vm_compute. done. Qed.

(** ** Further properties of the tracker *)

(** *** The two halves of the tracker *)

(** X1: [AssumeClaimAfterApiCall] and [AssumedClaimRestore] hand the call
    to the cache exactly as [ClaimsAssumeCache.Assume] and
    [ClaimsAssumeCache.Restore] do, with the same error and the same cache
    afterwards, and never touch the ledger, whether the cache accepts the
    claim or not: [ClaimHasPendingAllocation] answers as before. *)
Theorem cache_operations_leave_ledger (newer : object → object → bool)
  (c : runtime.claimTracker) (claim : ResourceClaim)
  (namespace claimName : string) :
  let plugin := dynamicresources.mkClaimsAssumeCache (runtime.cache c) in
  let assumed := runtime.AssumeClaimAfterApiCall newer c claim in
  let restored := runtime.AssumedClaimRestore c namespace claimName in
  assumed.2 = (dynamicresources.Assume newer plugin claim).2
  ∧ runtime.cache assumed.1
    = dynamicresources.cache (dynamicresources.Assume newer plugin claim).1
  ∧ runtime.cache restored
    = dynamicresources.cache
        (dynamicresources.Restore plugin namespace claimName)
  ∧ runtime.inFlightAllocations assumed.1 = runtime.inFlightAllocations c
  ∧ runtime.inFlightAllocations restored = runtime.inFlightAllocations c
  ∧ (∀ claimUid,
       runtime.ClaimHasPendingAllocation assumed.1 claimUid
       = runtime.ClaimHasPendingAllocation c claimUid
       ∧ runtime.ClaimHasPendingAllocation restored claimUid
         = runtime.ClaimHasPendingAllocation c claimUid).
Proof.
  simpl. unfold runtime.AssumeClaimAfterApiCall, dynamicresources.Assume,
    runtime.ClaimHasPendingAllocation. simpl.
  destruct (assumecache.Assume newer (runtime.cache c) (ClaimObj claim)).
  by split_and!.
Qed.

(** *** The ledger as a map *)

(** X2: signalling a claim under a UID without a pending allocation and
    then removing it is a round trip: the removal reports [true] and the
    tracker is back in the state before the signal, so every read,
    [ListAllAllocated] included, answers as before. *)
Theorem signal_then_remove_restores (c : runtime.claimTracker)
  (claimUid : string) (allocatedClaim : ResourceClaim) :
  runtime.ClaimHasPendingAllocation c claimUid = false →
  runtime.RemoveClaimPendingAllocation
    (runtime.SignalClaimPendingAllocation c claimUid allocatedClaim) claimUid
  = (c, true).
Proof.
  unfold runtime.ClaimHasPendingAllocation,
    runtime.RemoveClaimPendingAllocation,
    runtime.SignalClaimPendingAllocation. simpl.
  intros Hfree. rewrite lookup_insert_eq, delete_insert_eq.
  destruct c as [cache inFlight]. simpl in *.
  destruct (inFlight !! claimUid) eqn:Hlook; [done|].
  by rewrite delete_id.
Qed.

Lemma signal_then_remove_restores_witness :
  runtime.RemoveClaimPendingAllocation
    (runtime.SignalClaimPendingAllocation
       Samples.trackerXY "u1" Samples.claimX') "u1"
  = (Samples.trackerXY, true).
Proof.
  apply (signal_then_remove_restores Samples.trackerXY "u1" Samples.claimX').
  vm_compute. reflexivity.
Defined.

(** X3: operations on two different UIDs do not interfere: two signals
    commute, a signal and a removal commute and the removal reports what it
    would have reported on its own, and two removals commute. *)
Theorem ledger_operations_commute (c : runtime.claimTracker)
  (uid1 uid2 : string) (claim1 claim2 : ResourceClaim) :
  uid1 ≠ uid2 →
  runtime.SignalClaimPendingAllocation
    (runtime.SignalClaimPendingAllocation c uid1 claim1) uid2 claim2
  = runtime.SignalClaimPendingAllocation
      (runtime.SignalClaimPendingAllocation c uid2 claim2) uid1 claim1
  ∧ runtime.RemoveClaimPendingAllocation
      (runtime.SignalClaimPendingAllocation c uid1 claim1) uid2
    = (runtime.SignalClaimPendingAllocation
         (runtime.RemoveClaimPendingAllocation c uid2).1 uid1 claim1,
       (runtime.RemoveClaimPendingAllocation c uid2).2)
  ∧ (runtime.RemoveClaimPendingAllocation
       (runtime.RemoveClaimPendingAllocation c uid1).1 uid2).1
    = (runtime.RemoveClaimPendingAllocation
         (runtime.RemoveClaimPendingAllocation c uid2).1 uid1).1
  ∧ runtime.ClaimHasPendingAllocation
      (runtime.SignalClaimPendingAllocation c uid1 claim1) uid2
    = runtime.ClaimHasPendingAllocation c uid2.
Proof.
  intros Hne.
  unfold runtime.SignalClaimPendingAllocation,
    runtime.RemoveClaimPendingAllocation,
    runtime.ClaimHasPendingAllocation. simpl.
  rewrite lookup_insert_ne by done. split_and!.
  - f_equal. by apply insert_insert_ne.
  - f_equal. f_equal. by apply delete_insert_ne.
  - f_equal. apply delete_delete.
  - done.
Qed.

Lemma ledger_operations_commute_witness :
  runtime.SignalClaimPendingAllocation
    (runtime.SignalClaimPendingAllocation
       Samples.trackerXY "u1" Samples.claimX') "u2" Samples.claimY'
  = runtime.SignalClaimPendingAllocation
      (runtime.SignalClaimPendingAllocation
         Samples.trackerXY "u2" Samples.claimY') "u1" Samples.claimX'.
Proof.
  apply (ledger_operations_commute Samples.trackerXY "u1" "u2"
           Samples.claimX' Samples.claimY').
  discriminate.
Defined.

(** *** The size of the result *)



(** *** How the ledger operations show in [ListAllAllocated] *)



(** Signalling [ns/y] without allocation takes it off the list although
    the cache holds it allocated. *)
Example signal_without_allocation_hides :
  runtime.ListAllAllocated Samples.trackerXY = Ok [Samples.claimY]
  ∧ runtime.ListAllAllocated
      (runtime.SignalClaimPendingAllocation
         Samples.trackerXY "u2" Samples.claimY')
    = Ok [].
Proof. vm_compute. done. Qed.

(** X7: the tracker of a new manager works on the claims cache it was
    given and has no pending allocation: [ClaimHasPendingAllocation] is
    [false] and a removal finds nothing, for every UID, and
    [ListAllAllocated] returns the claims of [List] that carry an
    allocation. *)
Theorem NewDraManager_no_pending_allocation (claimsCache : AssumeCache) :
  let tracker := runtime.ResourceClaims (runtime.NewDraManager claimsCache) in
  runtime.cache tracker = claimsCache
  ∧ (∀ claimUid,
       runtime.ClaimHasPendingAllocation tracker claimUid = false
       ∧ runtime.RemoveClaimPendingAllocation tracker claimUid
         = (tracker, false))
  ∧ ∃ claims,
      runtime.List tracker = Ok claims
      ∧ runtime.ListAllAllocated tracker
        = Ok (filter (λ claim, isAllocated claim = true) claims).
Proof.
  simpl. split; [done|]. split.
  - intros claimUid.
    unfold runtime.ClaimHasPendingAllocation,
      runtime.RemoveClaimPendingAllocation. simpl.
    by rewrite lookup_empty, delete_empty.
  - eexists. split; [apply List_omap|].
    rewrite ListAllAllocated_Ok by apply map_Forall_empty. simpl.
    unfold allocatedAfterSubstitution. do 2 f_equal.
    rewrite <- (list_fmap_id (omap asClaim _)) at 2.
    apply list_fmap_ext. intros i claim _.
    apply substituteInFlight_None, lookup_empty.
Qed.

(** *** Keys *)

(** X8: [Get], [GetOriginal] and [AssumedClaimRestore] go by the joined
    string of namespace, slash and name alone: two pairs of namespace and
    name that join to the same string get the same answer, error message
    included, and restore the same entry.  The same holds for
    [ClaimsAssumeCache]. *)
Theorem lookups_go_by_joined_key (c : runtime.claimTracker)
  (ns1 name1 ns2 name2 : string) :
  ns1 ++ "/" ++ name1 = ns2 ++ "/" ++ name2 →
  runtime.Get c ns1 name1 = runtime.Get c ns2 name2
  ∧ runtime.GetOriginal c ns1 name1 = runtime.GetOriginal c ns2 name2
  ∧ runtime.AssumedClaimRestore c ns1 name1
    = runtime.AssumedClaimRestore c ns2 name2
  ∧ dynamicresources.Get
      (dynamicresources.mkClaimsAssumeCache (runtime.cache c)) ns1 name1
    = dynamicresources.Get
        (dynamicresources.mkClaimsAssumeCache (runtime.cache c)) ns2 name2
  ∧ dynamicresources.GetOriginal
      (dynamicresources.mkClaimsAssumeCache (runtime.cache c)) ns1 name1
    = dynamicresources.GetOriginal
        (dynamicresources.mkClaimsAssumeCache (runtime.cache c)) ns2 name2
  ∧ dynamicresources.Restore
      (dynamicresources.mkClaimsAssumeCache (runtime.cache c)) ns1 name1
    = dynamicresources.Restore
        (dynamicresources.mkClaimsAssumeCache (runtime.cache c)) ns2 name2.
Proof.
  intros Hkey.
  unfold runtime.Get, runtime.GetOriginal, runtime.AssumedClaimRestore,
    dynamicresources.Get, dynamicresources.GetOriginal,
    dynamicresources.Restore.
  rewrite Hkey. done.
Qed.

Lemma lookups_go_by_joined_key_witness :
  runtime.Get Samples.trackerXY "a/b" "c"
  = runtime.Get Samples.trackerXY "a" "b/c".
Proof.
  apply (lookups_go_by_joined_key Samples.trackerXY "a/b" "c" "a" "b/c").
  reflexivity.
Defined.

(** *** From the ledger to the cache *)





(** ** The ledger with its pointers *)

(** On a ledger of claim objects the loop with pointers is the loop of
    module [runtime]. *)
Lemma pointer_loop_ofTracker (inFlight : gmap string object)
  (claims allocated : list ResourceClaim) :
  pointers.listAllAllocatedLoop (pointers.Value <$> inFlight) claims allocated
  = runtime.listAllAllocatedLoop inFlight claims allocated.
Proof.
  revert allocated. induction claims as [|origClaim rest IH]; intros allocated;
    [done|].
  simpl. rewrite lookup_fmap.
  destruct (inFlight !! UID origClaim) as [[claim|goType ns name]|]; simpl;
    by rewrite ?IH.
Qed.

(** The tracker with pointers agrees with the tracker of module [runtime]
    wherever the ledger holds no nil pointer: the operations correspond and
    [ListAllAllocated] gives the same result. *)
Lemma pointers_agree_with_runtime (c : runtime.claimTracker)
  (claimUid : string) (allocatedClaim : ResourceClaim) :
  pointers.ListAllAllocated (pointers.ofTracker c)
  = runtime.ListAllAllocated c
  ∧ pointers.SignalClaimPendingAllocation (pointers.ofTracker c) claimUid
      (Some allocatedClaim)
    = pointers.ofTracker
        (runtime.SignalClaimPendingAllocation c claimUid allocatedClaim)
  ∧ pointers.RemoveClaimPendingAllocation (pointers.ofTracker c) claimUid
    = (pointers.ofTracker (runtime.RemoveClaimPendingAllocation c claimUid).1,
       (runtime.RemoveClaimPendingAllocation c claimUid).2)
  ∧ pointers.ClaimHasPendingAllocation (pointers.ofTracker c) claimUid
    = runtime.ClaimHasPendingAllocation c claimUid.
Proof.
  unfold pointers.ListAllAllocated, runtime.ListAllAllocated, pointers.List,
    runtime.List, pointers.SignalClaimPendingAllocation,
    pointers.RemoveClaimPendingAllocation, pointers.ClaimHasPendingAllocation,
    runtime.ClaimHasPendingAllocation, pointers.ofTracker. simpl.
  rewrite pointer_loop_ofTracker, fmap_insert, fmap_delete, lookup_fmap.
  by destruct (runtime.inFlightAllocations c !! claimUid).
Qed.

(** The loop gets through the list, or stops at the first listed claim
    under whose UID the ledger holds nil or a value of another kind. *)
Lemma pointer_loop_outcome (inFlight : gmap string pointers.any)
  (claims allocated : list ResourceClaim) :
  (Forall (λ claim, ¬ pointers.nilEntryFor inFlight claim
                    ∧ ¬ pointers.foreignEntryFor inFlight claim) claims
   ∧ ∃ result,
       pointers.listAllAllocatedLoop inFlight claims allocated = Ok result)
  ∨ (Exists (pointers.nilEntryFor inFlight) claims
     ∧ pointers.listAllAllocatedLoop inFlight claims allocated
       = Panic pointers.nilDereference)
  ∨ (Exists (pointers.foreignEntryFor inFlight) claims
     ∧ ∃ goType,
         pointers.listAllAllocatedLoop inFlight claims allocated
         = Panic (pointers.conversionPanic goType)).
Proof.
  revert allocated. induction claims as [|origClaim rest IH]; intros allocated.
  - left. split; [constructor|]. simpl. eauto.
  - unfold pointers.nilEntryFor, pointers.foreignEntryFor in *.
    cbn [pointers.listAllAllocatedLoop].
    destruct (inFlight !! UID origClaim) as [[|[claim|goType ns name]]|]
      eqn:Hlook; simpl.
    + right. left. split; [|done]. by apply Exists_cons_hd.
    + destruct (IH (if isAllocated claim then (allocated ++ [claim])%list
                    else allocated)) as [[Hall Hok]|[[Hex Hp]|[Hex Hp]]].
      * left. split; [|done]. constructor; [|done].
        rewrite Hlook. split; [done|]. by intros (obj & [= <-] & Hnone).
      * right. left. split; [by apply Exists_cons_tl|done].
      * right. right. split; [by apply Exists_cons_tl|done].
    + right. right. split; [|by exists goType].
      apply Exists_cons_hd. rewrite Hlook. by eexists.
    + destruct (IH (if isAllocated origClaim
                    then (allocated ++ [origClaim])%list
                    else allocated)) as [[Hall Hok]|[[Hex Hp]|[Hex Hp]]].
      * left. split; [|done]. constructor; [|done].
        rewrite Hlook. split; [done|]. by intros (obj & [=] & _).
      * right. left. split; [by apply Exists_cons_tl|done].
      * right. right. split; [by apply Exists_cons_tl|done].
Qed.

(** Whatever was signalled, the ledger holds claim pointers only. *)
Lemma pointer_reachable_ledger (c : pointers.claimTracker) :
  pointers.reachable c →
  map_Forall (λ _ v, ∃ claim, v = pointers.ofPointer claim)
    (pointers.inFlightAllocations c).
Proof.
  induction 1 as [claimsCache|c claimUid allocatedClaim _ IH
                 |c claimUid _ IH|c cache' _ IH]; simpl.
  - apply map_Forall_empty.
  - apply map_Forall_insert_2; [by eexists|done].
  - by apply map_Forall_delete.
  - done.
Qed.

(** C10: in every state the tracker can reach, with the pointers as they
    were handed in, every value of the in-flight ledger is a claim pointer
    (only [SignalClaimPendingAllocation] writes to the ledger, and it
    stores a claim pointer), so the type assertion on a value loaded from
    the ledger succeeds and returns that pointer: [ListAllAllocated] never
    panics in the assertion.  It returns a list, or panics reading through
    a nil pointer that was signalled. *)
Theorem reachable_ledger_holds_claim_pointers (c : pointers.claimTracker) :
  pointers.reachable c →
  (∀ claimUid v,
     pointers.inFlightAllocations c !! claimUid = Some v →
     ∃ claim, v = pointers.ofPointer claim
              ∧ pointers.assertClaimPointer v = Ok claim)
  ∧ (∀ goType,
       pointers.ListAllAllocated c
       ≠ Panic (pointers.conversionPanic goType))
  ∧ ((∃ allocated, pointers.ListAllAllocated c = Ok allocated)
     ∨ pointers.ListAllAllocated c = Panic pointers.nilDereference).
Proof.
  intros Hreach. apply pointer_reachable_ledger in Hreach.
  assert ((∃ allocated, pointers.ListAllAllocated c = Ok allocated)
          ∨ pointers.ListAllAllocated c = Panic pointers.nilDereference)
    as Hout.
  { unfold pointers.ListAllAllocated, pointers.List. simpl.
    destruct (pointer_loop_outcome (pointers.inFlightAllocations c)
                (foldl runtime.appendIfClaim []
                   (assumecache.List (pointers.cache c) None)) [])
      as [[_ Hok]|[[_ Hp]|[Hex _]]]; [by left|by right|].
    apply Exists_exists in Hex as (origClaim & _ & obj & Hlook & Hnone).
    destruct (Hreach _ _ Hlook) as [[claim|] Hv]; by simplify_eq/=. }
  split_and!.
  - intros claimUid v Hlook. destruct (Hreach _ _ Hlook) as [claim ->].
    exists claim. split; [done|]. by destruct claim.
  - intros goType Hpanic. rewrite Hpanic in Hout.
    destruct Hout as [[allocated [=]]|[=]].
  - exact Hout.
Qed.

Lemma reachable_ledger_holds_claim_pointers_witness :
  (∀ claimUid v,
     pointers.inFlightAllocations PointerSamples.trackerNilZ !! claimUid
     = Some v →
     ∃ claim, v = pointers.ofPointer claim
              ∧ pointers.assertClaimPointer v = Ok claim)
  ∧ (∀ goType,
       pointers.ListAllAllocated PointerSamples.trackerNilZ
       ≠ Panic (pointers.conversionPanic goType))
  ∧ ((∃ allocated,
        pointers.ListAllAllocated PointerSamples.trackerNilZ = Ok allocated)
     ∨ pointers.ListAllAllocated PointerSamples.trackerNilZ
       = Panic pointers.nilDereference).
Proof.
  apply reachable_ledger_holds_claim_pointers.
  apply pointers.reach_signal, pointers.reach_signal, pointers.reach_new.
Defined.

(** A nil pointer signalled under the UID of a listed claim passes the
    assertion and makes [ListAllAllocated] panic on the read through it;
    under a UID that no listed claim carries it is never loaded. *)
Example ListAllAllocated_nil_pointer :
  pointers.ListAllAllocated PointerSamples.trackerNilX
  = Panic pointers.nilDereference
  ∧ pointers.ListAllAllocated PointerSamples.trackerNilZ
    = Ok [Samples.claimY; Samples.claimX'].
Proof. vm_compute. done. Qed.

(** X4: in any state, whatever the ledger holds, [ListAllAllocated] never
    returns an error (its error branch is dead, [List] always succeeds).
    It panics exactly when, under the UID of a claim that [List] returns,
    the ledger holds a nil claim pointer or a value that is not a claim
    pointer, and returns a list otherwise. *)
Theorem ListAllAllocated_outcomes (c : pointers.claimTracker) :
  (∀ e, pointers.ListAllAllocated c ≠ Err e)
  ∧ ((∃ reason, pointers.ListAllAllocated c = Panic reason)
     ↔ ∃ claims origClaim,
         pointers.List c = Ok claims ∧ origClaim ∈ claims
         ∧ (pointers.nilEntryFor (pointers.inFlightAllocations c) origClaim
            ∨ pointers.foreignEntryFor (pointers.inFlightAllocations c)
                origClaim))
  ∧ ((∃ allocated, pointers.ListAllAllocated c = Ok allocated)
     ↔ ∀ claims origClaim,
         pointers.List c = Ok claims → origClaim ∈ claims →
         ¬ pointers.nilEntryFor (pointers.inFlightAllocations c) origClaim
         ∧ ¬ pointers.foreignEntryFor (pointers.inFlightAllocations c)
               origClaim).
Proof.
  unfold pointers.ListAllAllocated, pointers.List. simpl.
  set (claims := foldl runtime.appendIfClaim [] _).
  destruct (pointer_loop_outcome (pointers.inFlightAllocations c) claims [])
    as [[Hall [result ->]]|[[Hex ->]|[Hex [goType ->]]]].
  - rewrite Forall_forall in Hall. split_and!.
    + done.
    + split; [by intros [reason [=]]|].
      intros (claims' & origClaim & [= <-] & Hin & Hbad).
      destruct (Hall _ Hin) as [Hnil Hforeign]. by destruct Hbad.
    + split; [|eauto]. intros _ claims' origClaim [= <-] Hin. by apply Hall.
  - apply Exists_exists in Hex as (origClaim & Hin & Hnil). split_and!.
    + done.
    + split; [|eauto]. intros _. exists claims, origClaim. eauto.
    + split; [by intros [allocated [=]]|].
      intros Hnone. by destruct (Hnone claims origClaim) as [? _].
  - apply Exists_exists in Hex as (origClaim & Hin & Hforeign). split_and!.
    + done.
    + split; [|eauto]. intros _. exists claims, origClaim. eauto.
    + split; [by intros [allocated [=]]|].
      intros Hnone. by destruct (Hnone claims origClaim) as [_ ?].
Qed.
